(** * A shallow embedding of the type and storage glue of [torch/__init__.py]

    The Python module [torch/__init__.py] defines the storage class shims
    ([DoubleStorage] ... [BFloat16Storage], collected in [_storage_classes]),
    the predicates [is_tensor], [is_storage], the helper [typename], and
    the setters [set_default_tensor_type] and [set_default_dtype].  The two
    setters delegate to the native extension ([torch._C]) and to
    [torch._utils._import_dotted_name]; those pieces are not part of the
    Python file and are modelled from the specification below, each with a
    doc comment saying so. *)

From Stdlib Require Import List String Ascii Bool Arith NArith ZArith Lia.
Import ListNotations.
Open Scope string_scope.

(** ** Element kinds and backends *)

(** The scalar representations ([torch.dtype]). *)
Inductive ElementKind :=
  | Float64 | Float32 | Float16 | BFloat16
  | Int64 | Int32 | Int16 | Int8 | UInt8
  | Bool
  | QInt8 | QUInt8 | QInt32.

Definition ElementKind_eq_dec (a b : ElementKind) : {a = b} + {a <> b}.
Proof. decide equality. Defined.

Definition all_kinds : list ElementKind :=
  [Float64; Float32; Float16; BFloat16; Int64; Int32; Int16; Int8; UInt8;
   Bool; QInt8; QUInt8; QInt32].

(** The floating-point kinds, the only ones allowed as the default kind
    for floating-point type inference. *)
Definition is_floating (k : ElementKind) : bool :=
  match k with
  | Float64 | Float32 | Float16 | BFloat16 => true
  | _ => false
  end.

Inductive Backend := CPU | CUDA.

Definition Backend_eq_dec (a b : Backend) : {a = b} + {a <> b}.
Proof. decide equality. Defined.

(** A tensor type descriptor such as [torch.FloatTensor]: a backend and an
    element kind. *)
Record TensorType := mkTensorType { tt_backend : Backend; tt_kind : ElementKind }.

Definition TensorType_eq_dec (a b : TensorType) : {a = b} + {a <> b}.
Proof.
  destruct a as [b1 k1], b as [b2 k2].
  destruct (Backend_eq_dec b1 b2), (ElementKind_eq_dec k1 k2); subst;
    [left; reflexivity | right; congruence ..].
Defined.

(** [torch.FloatTensor], the generic CPU float tensor. *)
Definition FloatTensor : TensorType := mkTensorType CPU Float32.
Definition DoubleTensor : TensorType := mkTensorType CPU Float64.

(** ** Errors *)

Inductive Error :=
  | DuplicateRegistration
  | UnknownType
  | MalformedTypeName
  | AllocationFailure
  | UnsupportedDefaultKind
  | ShapeStrideMismatch
  | IncompatibleShape
  | IndexOutOfRange.

(** ** A state and exception monad

    Python raises exceptions; the setters also write the process-wide
    default-type state.  A computation takes the state and returns either
    an exception or a value, together with the state at that point. *)

Definition result (A : Type) : Type := (Error + A)%type.

Record DefaultTypeState := mkState {
  default_kind : ElementKind;
  default_tensor_type : TensorType
}.

Definition M (A : Type) : Type := DefaultTypeState -> result A * DefaultTypeState.

Definition ret {A} (a : A) : M A := fun s => (inr a, s).
Definition raise {A} (e : Error) : M A := fun s => (inl e, s).
Definition bind {A B} (m : M A) (f : A -> M B) : M B :=
  fun s => match m s with
           | (inl e, s') => (inl e, s')
           | (inr a, s') => f a s'
           end.
Definition get_state : M DefaultTypeState := fun s => (inr s, s).
Definition put_state (s : DefaultTypeState) : M unit := fun _ => (inr tt, s).

Notation "x <- m ;; k" := (bind m (fun x => k))
  (at level 61, m at next level, right associativity).
Notation "m ;;; k" := (bind m (fun _ => k))
  (at level 61, right associativity).

(** ** Names of tensor types and the registered tensor types *)

Definition kind_prefix (k : ElementKind) : string :=
  match k with
  | Float64 => "Double" | Float32 => "Float" | Float16 => "Half"
  | BFloat16 => "BFloat16" | Int64 => "Long" | Int32 => "Int"
  | Int16 => "Short" | Int8 => "Char" | UInt8 => "Byte" | Bool => "Bool"
  | QInt8 => "QInt8" | QUInt8 => "QUInt8" | QInt32 => "QInt32"
  end.

(** The canonical dotted name, e.g. ["torch.FloatTensor"] or
    ["torch.cuda.DoubleTensor"]. *)
Definition type_name (t : TensorType) : string :=
  (match tt_backend t with CPU => "torch." | CUDA => "torch.cuda." end)
    ++ kind_prefix (tt_kind t) ++ "Tensor".

Definition is_quantized (k : ElementKind) : bool :=
  match k with QInt8 | QUInt8 | QInt32 => true | _ => false end.

(** The tensor types registered at process start: every kind on the CPU,
    the non-quantized kinds on CUDA. *)
Definition registered_tensor_types : list TensorType :=
  map (mkTensorType CPU) all_kinds
    ++ map (mkTensorType CUDA) (filter (fun k => negb (is_quantized k)) all_kinds).

Definition registered_b (t : TensorType) : bool :=
  existsb (fun u => if TensorType_eq_dec t u then true else false)
    registered_tensor_types.

(** Modelled from the spec: [torch._utils._import_dotted_name], which is not
    part of [torch/__init__.py].  It is the registry's [resolveByName]: a
    canonical dotted name resolves to the registered entry of that name, and
    any other name fails with [MalformedTypeName].  It reads no default-type
    state and writes none. *)
Definition _import_dotted_name (name : string) : result TensorType :=
  match find (fun t => String.eqb (type_name t) name) registered_tensor_types with
  | Some t => inr t
  | None => inl MalformedTypeName
  end.

(** ** The default-type state *)

(** Modelled from the spec: the native initial value of the default-type
    state, 32-bit float and the generic CPU float tensor
    ([torch.FloatTensor]), as the docstrings of [set_default_tensor_type]
    and [set_default_dtype] also say. *)
Definition initial_state : DefaultTypeState := mkState Float32 FloatTensor.

(** Modelled from the spec: the native [_C._set_default_tensor_type].  An
    unregistered descriptor fails with [UnknownType]; the type's kind becomes
    the default kind for floating-point inference (docstring of
    [set_default_tensor_type]), so a non-floating type is refused like
    [setDefaultElementKind] refuses a non-floating kind. *)
Definition _C_set_default_tensor_type (t : TensorType) : M unit :=
  if negb (registered_b t) then raise UnknownType
  else if negb (is_floating (tt_kind t)) then raise UnsupportedDefaultKind
  else put_state (mkState (tt_kind t) t).

(** Modelled from the spec: the native [_C._set_default_dtype], i.e.
    [setDefaultElementKind].  A non-floating kind fails with
    [UnsupportedDefaultKind]; otherwise the kind becomes the default kind
    and the default tensor type follows it on the same backend, so the two
    fields never disagree. *)
Definition _C_set_default_dtype (d : ElementKind) : M unit :=
  if negb (is_floating d) then raise UnsupportedDefaultKind
  else s <- get_state ;;
       put_state (mkState d (mkTensorType (tt_backend (default_tensor_type s)) d)).

(** The argument of [set_default_tensor_type]: a string (one of
    [_string_classes]) or a type object. *)
Inductive TypeArg :=
  | TStr (name : string)
  | TDesc (t : TensorType).

(** [set_default_tensor_type(t)]:
<<
    if isinstance(t, _string_classes):
        t = _import_dotted_name(t)
    _C._set_default_tensor_type(t)
>> *)
Definition set_default_tensor_type (t : TypeArg) : M unit :=
  match t with
  | TStr name =>
      match _import_dotted_name name with
      | inl e => raise e
      | inr t' => _C_set_default_tensor_type t'
      end
  | TDesc t' => _C_set_default_tensor_type t'
  end.

(** [set_default_dtype(d)]: [_C._set_default_dtype(d)]. *)
Definition set_default_dtype (d : ElementKind) : M unit := _C_set_default_dtype d.

(** ** Tensor construction without an explicit dtype *)

(** What the data given to a constructor looks like for type inference;
    [NoData] stands for factories such as [torch.zeros(3)]. *)
Inductive Data := FloatData | IntData | BoolData | NoData.

(** Modelled from the spec: the native constructors.  An explicit dtype is
    used as is; otherwise the kind is inferred, and the default kind is the
    kind used for floating-point inference (floating-point data, or no data
    at all). *)
Definition infer_kind (s : DefaultTypeState) (d : Data) : ElementKind :=
  match d with
  | FloatData | NoData => default_kind s
  | IntData => Int64
  | BoolData => Bool
  end.

Definition construct_tensor (dtype : option ElementKind) (d : Data) : M ElementKind :=
  match dtype with
  | Some k => ret k
  | None => s <- get_state ;; ret (infer_kind s d)
  end.

(** A program is a sequence of top-level calls. *)
Inductive Op :=
  | OpSetDtype (k : ElementKind)
  | OpSetTensorType (t : TypeArg)
  | OpConstruct (dtype : option ElementKind) (d : Data).

Definition exec_op (op : Op) : M (option ElementKind) :=
  match op with
  | OpSetDtype k => set_default_dtype k ;;; ret None
  | OpSetTensorType t => set_default_tensor_type t ;;; ret None
  | OpConstruct dt d => k <- construct_tensor dt d ;; ret (Some k)
  end.

(** The state after a sequence of calls; a failed call leaves the state
    it raised in and the next call runs from there. *)
Fixpoint final_state (ops : list Op) (s : DefaultTypeState) : DefaultTypeState :=
  match ops with
  | [] => s
  | op :: rest => final_state rest (snd (exec_op op s))
  end.

Definition is_setter (op : Op) : bool :=
  match op with OpConstruct _ _ => false | _ => true end.

Definition floating_inferred (d : Data) : bool :=
  match d with FloatData | NoData => true | _ => false end.

(** ** Python classes and objects

    A class is its module, its [__name__] and its bases.  The storage and
    tensor classes of [torch/__init__.py] are written below with the bases
    they are declared with. *)

Set Warnings "-register-all".
Inductive pycls := Cls (module : string) (name : string) (bases : list pycls).

Definition cls_name (c : pycls) : string := let '(Cls _ n _) := c in n.
Definition cls_bases (c : pycls) : list pycls := let '(Cls _ _ bs) := c in bs.

(** Induction over classes, through the list of bases. *)
Fixpoint pycls_ind' (P : pycls -> Prop)
  (H : forall m n bs, Forall P bs -> P (Cls m n bs)) (c : pycls) : P c :=
  match c with
  | Cls m n bs =>
      H m n bs
        ((fix go (l : list pycls) : Forall P l :=
            match l with
            | [] => Forall_nil P
            | x :: xs => Forall_cons x (pycls_ind' P H x) (go xs)
            end) bs)
  end.

(** Identity of class objects. *)
Fixpoint pycls_eqb (a b : pycls) : bool :=
  match a, b with
  | Cls m1 n1 bs1, Cls m2 n2 bs2 =>
      String.eqb m1 m2 && String.eqb n1 n2 &&
      (fix go (l1 l2 : list pycls) : bool :=
         match l1, l2 with
         | [], [] => true
         | x :: xs, y :: ys => pycls_eqb x y && go xs ys
         | _, _ => false
         end) bs1 bs2
  end.

(** [issubclass(c, target)]: [target] is [c] or reachable through bases. *)
Fixpoint issubclass (c target : pycls) : bool :=
  pycls_eqb c target ||
  (fix go (l : list pycls) : bool :=
     match l with
     | [] => false
     | b :: bs => issubclass b target || go bs
     end) (cls_bases c).

Definition object : pycls := Cls "builtins" "object" [].

(** [torch._C.<Kind>StorageBase], the native base of each storage class. *)
Definition _C_StorageBase (k : ElementKind) : pycls :=
  Cls "torch._C" (kind_prefix k ++ "StorageBase") [object].

Definition _StorageBase : pycls := Cls "torch.storage" "_StorageBase" [object].

(** [class <Kind>Storage(_C.<Kind>StorageBase, _StorageBase): pass] *)
Definition storage_class (k : ElementKind) : pycls :=
  Cls "torch" (kind_prefix k ++ "Storage") [_C_StorageBase k; _StorageBase].

Definition DoubleStorage := storage_class Float64.
Definition FloatStorage := storage_class Float32.
Definition HalfStorage := storage_class Float16.
Definition LongStorage := storage_class Int64.
Definition IntStorage := storage_class Int32.
Definition ShortStorage := storage_class Int16.
Definition CharStorage := storage_class Int8.
Definition ByteStorage := storage_class UInt8.
Definition BoolStorage := storage_class Bool.
Definition BFloat16Storage := storage_class BFloat16.
Definition QUInt8Storage := storage_class QUInt8.
Definition QInt8Storage := storage_class QInt8.
Definition QInt32Storage := storage_class QInt32.

(** [_storage_classes], in the order of the set literal. *)
Definition _storage_classes : list pycls :=
  [DoubleStorage; FloatStorage; LongStorage; IntStorage; ShortStorage;
   CharStorage; ByteStorage; HalfStorage; BoolStorage; QUInt8Storage;
   QInt8Storage; QInt32Storage; BFloat16Storage].

(** The element kind a storage class exposes: the kind of the native
    [_C.<Kind>StorageBase] among its bases. *)
Definition storage_kind (c : pycls) : option ElementKind :=
  find (fun k => existsb (pycls_eqb (_C_StorageBase k)) (cls_bases c)) all_kinds.

Definition _TensorBase : pycls := Cls "torch._C" "_TensorBase" [object].

(** [torch.Tensor] ([class Tensor(torch._C._TensorBase)] in torch/tensor.py). *)
Definition Tensor : pycls := Cls "torch" "Tensor" [_TensorBase].

(** A Python object as [typename] sees it: its class, and the attributes
    [__module__] ([None] when absent, [Some None] when it is [None]),
    [__qualname__] and [__name__]. *)
Record pyobj := mkObj {
  ob_class : pycls;
  ob_module : option (option string);
  ob_qualname : option string;
  ob_name : option string
}.

(** [is_tensor(obj)]: [isinstance(obj, torch.Tensor)]. *)
Definition is_tensor (obj : pyobj) : bool := issubclass (ob_class obj) Tensor.

(** [is_storage(obj)]: [type(obj) in _storage_classes]. *)
Definition is_storage (obj : pyobj) : bool :=
  existsb (pycls_eqb (ob_class obj)) _storage_classes.

Section Typename.

(** The native method [Tensor.type()], as seen on a tensor object. *)
Variable tensor_type : pyobj -> string.

(** [typename(o)]. *)
Definition typename (o : pyobj) : string :=
  if is_tensor o then tensor_type o else
  let module :=
    match ob_module o with
    | Some (Some m) =>
        if negb (String.eqb m "builtins") && negb (String.eqb m "__builtin__")
        then m ++ "." else ""
    | _ => ""
    end in
  let class_name :=
    match ob_qualname o with
    | Some q => q
    | None =>
        match ob_name o with
        | Some n => n
        | None => cls_name (ob_class o)
        end
    end in
  module ++ class_name.

End Typename.

(** ** The type registry *)

Section Registry.

(** Whatever a registry entry produces a storage and view pair with. *)
Variable Factory : Type.

Definition Key : Type := (Backend * ElementKind)%type.

Definition key_eqb (a b : Key) : bool :=
  if Backend_eq_dec (fst a) (fst b) then
    if ElementKind_eq_dec (snd a) (snd b) then true else false
  else false.

(** Modelled from the spec: the TypeRegistry, an append-only association
    list from (backend, kind) to a factory. *)
Definition Registry : Type := list (Key * Factory).

Definition empty_registry : Registry := [].

Definition register (r : Registry) (b : Backend) (k : ElementKind) (f : Factory)
  : result Registry :=
  if existsb (fun e => key_eqb (fst e) (b, k)) r then inl DuplicateRegistration
  else inr (((b, k), f) :: r).

Definition resolve (r : Registry) (b : Backend) (k : ElementKind) : result Factory :=
  match find (fun e => key_eqb (fst e) (b, k)) r with
  | Some (_, f) => inr f
  | None => inl UnknownType
  end.

(** Registration of a sequence of entries at process start, stopping at
    the first failure. *)
Fixpoint register_all (r : Registry) (regs : list (Backend * ElementKind * Factory))
  : result Registry :=
  match regs with
  | [] => inr r
  | (b, k, f) :: rest =>
      match register r b k f with
      | inl e => inl e
      | inr r' => register_all r' rest
      end
  end.

End Registry.

Arguments empty_registry {Factory}.

(** ** Storage and tensor views *)

Record Storage := mkStorage { st_kind : ElementKind; st_capacity : nat }.

Record TensorView := mkView {
  tv_storage : Storage;
  tv_shape : list nat;
  tv_stride : list nat;
  tv_offset : nat
}.

(** The element index a multi-index addresses: offset plus the sum of
    coordinate times stride. *)
Fixpoint dot (ix stride : list nat) : nat :=
  match ix, stride with
  | i :: ix', s :: stride' => i * s + dot ix' stride'
  | _, _ => 0
  end.

Definition project (ix stride : list nat) (offset : nat) : nat := offset + dot ix stride.

(** A multi-index is valid for a shape when it has one coordinate per
    dimension, each below that dimension's extent. *)
Definition valid_index (ix shape : list nat) : Prop := Forall2 lt ix shape.

(** Modelled from the spec: [construct(storage, shape, stride, offset)].
    A shape with an empty dimension has no valid multi-index and always
    fits; otherwise the largest projected index, reached at the last
    coordinate of every dimension, must be below the capacity, or the call
    fails with [ShapeStrideMismatch]. *)
Definition construct (st : Storage) (shape stride : list nat) (offset : nat)
  : result TensorView :=
  if existsb (Nat.eqb 0) shape then inr (mkView st shape stride offset)
  else if Nat.ltb (project (map pred shape) stride offset) (st_capacity st)
  then inr (mkView st shape stride offset)
  else inl ShapeStrideMismatch.

(** ** Module-level code of [torch/__init__.py] *)

(** Python exceptions raised by the module-level code. *)
Inductive PyExc :=
  | IndexError
  | KeyError (key : string)
  | NameError (name : string)
  | RuntimeError (msg : list N)
  | UnicodeEncodeError.

(** A Python dict with string keys (the module globals, [os.environ]). *)
Definition dict (V : Type) : Type := string -> option V.

Definition dict_set {V} (d : dict V) (k : string) (v : V) : dict V :=
  fun k' => if String.eqb k' k then Some v else d k'.

Definition dict_del {V} (d : dict V) (k : string) : dict V :=
  fun k' => if String.eqb k' k then None else d k'.

(** [s.endswith(suf)]. *)
Definition endswith (s suf : string) : bool :=
  let n := String.length s in
  let m := String.length suf in
  Nat.leb m n && String.eqb (substring (n - m) m s) suf.

(** The condition of the comprehension over [dir(_C)]:
    [name[0] != '_' and not name.endswith('Base')]; [name[0]] raises
    [IndexError] on the empty string. *)
Definition exported_name (name : string) : PyExc + bool :=
  match name with
  | EmptyString => inl IndexError
  | String c _ =>
      inr (negb (Ascii.eqb c "_"%char) && negb (endswith name "Base"))
  end.

(** [[name for name in dir(_C) if name[0] != '_' and
      not name.endswith('Base')]] *)
Fixpoint public_names (names : list string) : PyExc + list string :=
  match names with
  | [] => inr []
  | n :: rest =>
      match exported_name n with
      | inl e => inl e
      | inr keep =>
          match public_names rest with
          | inl e => inl e
          | inr l => inr (if keep then n :: l else l)
          end
      end
  end.

(** The literal [__all__]. *)
Definition all_literal : list string :=
  ["typename"; "is_tensor"; "is_storage"; "set_default_tensor_type";
   "set_rng_state"; "get_rng_state"; "manual_seed"; "initial_seed"; "seed";
   "save"; "load"; "set_printoptions"; "chunk"; "split"; "stack"; "matmul";
   "no_grad"; "enable_grad"; "rand"; "randn";
   "DoubleStorage"; "FloatStorage"; "LongStorage"; "IntStorage";
   "ShortStorage"; "CharStorage"; "ByteStorage"; "BoolStorage";
   "DoubleTensor"; "FloatTensor"; "LongTensor"; "IntTensor";
   "ShortTensor"; "CharTensor"; "ByteTensor"; "BoolTensor"; "Tensor"].

(** [__all__ += [name for name in dir(_C) if ...]], given [dir(_C)]. *)
Definition torch_all (dir_C : list string) : PyExc + list string :=
  match public_names dir_C with
  | inl e => inl e
  | inr l => inr (app all_literal l)
  end.

(** The loop copying [_C._VariableFunctions] into the module globals:
<<
    for name in dir(_C._VariableFunctions):
        if name.startswith('__'):
            continue
        globals()[name] = getattr(_C._VariableFunctions, name)
>>
    [vf] lists the attributes of [_C._VariableFunctions] in [dir] order.
    The loop runs at module level, so each iteration first binds the global
    [name] to the current name ([of_str] makes a global's value of a
    Python string). *)
Fixpoint copy_variable_functions {V} (of_str : string -> V)
  (vf : list (string * V)) (g : dict V) : dict V :=
  match vf with
  | [] => g
  | (n, v) :: rest =>
      let g1 := dict_set g "name" (of_str n) in
      copy_variable_functions of_str rest
        (if String.prefix "__" n then g1 else dict_set g1 n v)
  end.

(** [del NAME] at module level: [NameError] when [NAME] is unbound. *)
Definition py_del {V} (g : dict V) (name : string) : PyExc + dict V :=
  match g name with
  | None => inl (NameError name)
  | Some _ => inr (dict_del g name)
  end.

Fixpoint py_del_all {V} (g : dict V) (names : list string) : PyExc + dict V :=
  match names with
  | [] => inr g
  | n :: rest =>
      match py_del g n with
      | inl e => inl e
      | inr g' => py_del_all g' rest
      end
  end.

(** The names of the "Remove unnecessary members" block. *)
Definition deleted_bases : list string :=
  ["DoubleStorageBase"; "FloatStorageBase"; "LongStorageBase"; "IntStorageBase";
   "ShortStorageBase"; "CharStorageBase"; "ByteStorageBase"; "BoolStorageBase";
   "QUInt8StorageBase"; "BFloat16StorageBase"].

(** The platforms [platform.system()] distinguishes. *)
Inductive Platform := Windows | Darwin | Linux | OtherPlatform (name : string).

(** A Python [str] is its list of code points, each below [0x110000]; a
    [bytes] value is its list of byte values. *)
Definition pystr : Type := list N.

Definition valid_pystr (s : pystr) : Prop := Forall (fun c => (c < 1114112)%N) s.

Definition pystr_of_string (s : string) : pystr :=
  map Ascii.N_of_ascii (list_ascii_of_string s).

(** The surrogate code points [U+D800 .. U+DFFF], which strict UTF-8
    encoding refuses (they are how Python keeps undecodable bytes of a
    POSIX file name). *)
Definition is_surrogate (c : N) : bool := N.leb 55296 c && N.ltb c 57344.

(** One code point in UTF-8; [None] for a surrogate. *)
Definition utf8_char (c : N) : option (list N) :=
  if N.ltb c 128 then Some [c]
  else if N.ltb c 2048 then Some [192 + c / 64; 128 + c mod 64]%N
  else if N.ltb c 65536 then
    if is_surrogate c then None
    else Some [224 + c / 4096; 128 + (c / 64) mod 64; 128 + c mod 64]%N
  else Some [240 + c / 262144; 128 + (c / 4096) mod 64;
             128 + (c / 64) mod 64; 128 + c mod 64]%N.

(** [s.encode('utf-8')] with the default [strict] error handler: a
    surrogate raises [UnicodeEncodeError]. *)
Fixpoint utf8_encode (s : pystr) : PyExc + list N :=
  match s with
  | [] => inr []
  | c :: rest =>
      match utf8_char c with
      | None => inl UnicodeEncodeError
      | Some bs =>
          match utf8_encode rest with
          | inl e => inl e
          | inr tail => inr (app bs tail)
          end
      end
  end.

Section ManagerPath.

(** [torch._utils_internal.get_file_path], which joins its arguments onto
    the install directory; [prepare_multiprocessing_environment], called
    for its effect on the environment and modelled only by whether it
    raises; [os.path.exists]. *)
Variable get_file_path : list string -> pystr.
Variable prepare_multiprocessing_environment : pystr -> PyExc + unit.
Variable path_exists : pystr -> bool.

(** [manager_path()]:
<<
    if platform.system() == 'Windows':
        return b""
    path = get_file_path('torch', 'bin', 'torch_shm_manager')
    prepare_multiprocessing_environment(get_file_path('torch'))
    if not os.path.exists(path):
        raise RuntimeError("Unable to find torch_shm_manager at " + path)
    return path.encode('utf-8')
>> *)
Definition manager_path (p : Platform) : PyExc + list N :=
  match p with
  | Windows => inr []
  | _ =>
      let path := get_file_path ["torch"; "bin"; "torch_shm_manager"] in
      match prepare_multiprocessing_environment (get_file_path ["torch"]) with
      | inl e => inl e
      | inr _ =>
          if negb (path_exists path)
          then inl (RuntimeError
                      (app (pystr_of_string "Unable to find torch_shm_manager at ") path))
          else utf8_encode path
      end
  end.

End ManagerPath.

(** [sep.join(l)]. *)
Fixpoint str_join (sep : string) (l : list string) : string :=
  match l with
  | [] => ""
  | [x] => x
  | x :: rest => x ++ sep ++ str_join sep rest
  end.

Section WindowsPath.

(** [os.path.join], [os.path.exists], [os.path.dirname(__file__)] and
    [sys.exec_prefix]. *)
Variable path_join : list string -> string.
Variable path_exists : string -> bool.
Variable file_dir : string.
Variable exec_prefix : string.

(** The Windows block at the top of the module, on [os.environ]:
<<
    NVTOOLSEXT_PATH = os.getenv('NVTOOLSEXT_PATH', 'C:\\Program Files\\NVIDIA Corporation\\NvToolsExt')
    if os.path.exists(NVTOOLSEXT_PATH):
        nvtoolsext_lib_path = os.path.join(NVTOOLSEXT_PATH, 'bin', 'x64')
    else:
        nvtoolsext_lib_path = ''
    py_dll_path = os.path.join(sys.exec_prefix, 'Library', 'bin')
    th_dll_path = os.path.join(os.path.dirname(__file__), 'lib')
    dll_paths = [th_dll_path, py_dll_path, nvtoolsext_lib_path, os.environ['PATH']]
    os.environ['PATH'] = ';'.join(dll_paths)
>> *)
Definition nvtoolsext_lib_path (env : dict string) : string :=
  let nv := match env "NVTOOLSEXT_PATH" with
            | Some p => p
            | None => "C:\Program Files\NVIDIA Corporation\NvToolsExt"
            end in
  if path_exists nv then path_join [nv; "bin"; "x64"] else "".

Definition py_dll_path : string := path_join [exec_prefix; "Library"; "bin"].
Definition th_dll_path : string := path_join [file_dir; "lib"].

Definition windows_dll_setup (env : dict string) : PyExc + dict string :=
  match env "PATH" with
  | None => inl (KeyError "PATH")
  | Some old =>
      let dll_paths := [th_dll_path; py_dll_path; nvtoolsext_lib_path env; old] in
      inr (dict_set env "PATH" (str_join ";" dll_paths))
  end.

End WindowsPath.

(** Splitting a string at [';'] ([s.split(';')]), used to read the
    entries of [PATH]. *)
Fixpoint split_semi (s : string) : list string :=
  match s with
  | EmptyString => [""]
  | String c rest =>
      if Ascii.eqb c ";"%char then "" :: split_semi rest
      else match split_semi rest with
           | [] => [String c ""]
           | x :: xs => String c x :: xs
           end
  end.

Definition no_semi (s : string) : bool :=
  negb (existsb (fun c => Ascii.eqb c ";"%char) (list_ascii_of_string s)).

(** * Properties *)

(** ** Class identity *)

Lemma pycls_eqb_spec : forall a b, pycls_eqb a b = true <-> a = b.
Proof.
  induction a as [m1 n1 bs1 IH] using pycls_ind'.
  intros [m2 n2 bs2]; simpl.
  rewrite !andb_true_iff, !String.eqb_eq.
  enough (Hl : (fix go (l1 l2 : list pycls) : bool :=
                  match l1, l2 with
                  | [], [] => true
                  | x :: xs, y :: ys => pycls_eqb x y && go xs ys
                  | _, _ => false
                  end) bs1 bs2 = true <-> bs1 = bs2).
  { rewrite Hl; split; [intros [[-> ->] ->]; reflexivity | intros H; inversion H; auto]. }
  revert bs2; induction IH as [|x xs Hx Hxs IHxs]; intros [|y ys].
  - split; auto.
  - split; discriminate.
  - split; discriminate.
  - rewrite andb_true_iff, Hx, IHxs.
    split; [intros [-> ->]; reflexivity | intros H; inversion H; auto].
Qed.

Lemma pycls_eqb_refl : forall a, pycls_eqb a a = true.
Proof. intros a; apply pycls_eqb_spec; reflexivity. Qed.

Lemma existsb_pycls_eqb_In : forall c l, existsb (pycls_eqb c) l = true <-> In c l.
Proof.
  intros c l; rewrite existsb_exists; split.
  - intros [x [Hin Heq]]; apply pycls_eqb_spec in Heq; subst; exact Hin.
  - intros Hin; exists c; split; [exact Hin | apply pycls_eqb_refl].
Qed.

(** No storage class derives from another one. *)
Lemma storage_classes_unrelated :
  forallb (fun c => forallb (fun s => negb (issubclass c s) || pycls_eqb c s)
                      _storage_classes) _storage_classes = true.
Proof. vm_compute. reflexivity. Qed.

(** ** The default-type state *)

Definition no_setter (ops : list Op) : bool := forallb (fun op => negb (is_setter op)) ops.

Lemma final_state_no_setter : forall ops s, no_setter ops = true -> final_state ops s = s.
Proof.
  induction ops as [|op ops IH]; intros s H; [reflexivity|].
  destruct op as [k|t|dt d]; try discriminate.
  simpl in *. destruct dt; apply IH; exact H.
Qed.

(** C1: [set_default_dtype] fails with [UnsupportedDefaultKind] on every
    non-floating kind (e.g. [int32]), leaving the state as it was, and
    succeeds on every floating-point kind, which becomes the default. *)
Theorem set_default_dtype_floating_only : forall k s,
  set_default_dtype k s =
    (if is_floating k
     then (inr tt, mkState k (mkTensorType (tt_backend (default_tensor_type s)) k))
     else (inl UnsupportedDefaultKind, s))
  /\ fst (set_default_dtype Int32 s) = inl UnsupportedDefaultKind.
Proof. intros [] s; split; reflexivity. Qed.




(** C3: at process start the default kind is float32 and the default
    tensor type is [torch.FloatTensor]; a construction without dtype whose
    kind is inferred as floating point, made before any setter call, yields
    float32. *)
Theorem initial_defaults :
  default_kind initial_state = Float32 /\
  default_tensor_type initial_state = FloatTensor /\
  type_name FloatTensor = "torch.FloatTensor" /\
  (forall pre d,
     no_setter pre = true ->
     floating_inferred d = true ->
     fst (construct_tensor None d (final_state pre initial_state)) = inr Float32).
Proof.
  split; [reflexivity | split; [reflexivity | split; [reflexivity |]]].
  intros pre d Hpre Hd. rewrite final_state_no_setter by exact Hpre.
  destruct d; try discriminate; reflexivity.
Qed.

Lemma initial_defaults_witness :
  no_setter [OpConstruct (Some Int32) IntData] = true /\
  floating_inferred NoData = true /\
  fst (construct_tensor None NoData
         (final_state [OpConstruct (Some Int32) IntData] initial_state)) = inr Float32.
Proof.
  split; [reflexivity | split; [reflexivity |]].
  apply (proj2 (proj2 (proj2 initial_defaults))); reflexivity.
Defined.

(** C9: when the dotted-name resolution of a string argument raises,
    [set_default_tensor_type] raises the same exception with the
    default-type state untouched. *)
Theorem set_default_tensor_type_failed_name_keeps_state : forall name e s,
  _import_dotted_name name = inl e ->
  set_default_tensor_type (TStr name) s = (inl e, s) /\
  default_tensor_type (snd (set_default_tensor_type (TStr name) s)) = default_tensor_type s.
Proof.
  intros name e s H. simpl. rewrite H. split; reflexivity.
Qed.

Lemma set_default_tensor_type_failed_name_keeps_state_witness :
  _import_dotted_name "torch.FlaotTensor" = inl MalformedTypeName /\
  set_default_tensor_type (TStr "torch.FlaotTensor") (mkState Float64 DoubleTensor)
    = (inl MalformedTypeName, mkState Float64 DoubleTensor).
Proof.
  split; [vm_compute; reflexivity |].
  apply (set_default_tensor_type_failed_name_keeps_state _ MalformedTypeName).
  vm_compute; reflexivity.
Defined.

(** ** The tensor-type setter *)

(** C4 (as stated): a name whose resolution fails makes
    [set_default_tensor_type] fail with [UnknownType].  Refuted: the error
    of [_import_dotted_name] propagates unchanged, [MalformedTypeName]. *)
Lemma set_default_tensor_type_bad_name_not_UnknownType :
  ~ (forall name s,
       (exists e, _import_dotted_name name = inl e) ->
       fst (set_default_tensor_type (TStr name) s) = inl UnknownType).
Proof.
  intros H.
  specialize (H "torch.FlaotTensor" initial_state
                (ex_intro _ MalformedTypeName eq_refl)).
  vm_compute in H. discriminate H.
Qed.

(** C4 (amended): [set_default_tensor_type] accepts a canonical dotted name,
    resolved by [_import_dotted_name] (every registered type resolves from
    its own name, and then behaves as the descriptor itself), or a
    descriptor.  A name whose resolution fails makes it fail with the
    resolution's own error, [MalformedTypeName], state untouched; a
    descriptor that is not registered fails with [UnknownType]. *)
Theorem set_default_tensor_type_resolution : forall s,
  forallb (fun t => match _import_dotted_name (type_name t) with
                    | inr t' => if TensorType_eq_dec t t' then true else false
                    | inl _ => false
                    end) registered_tensor_types = true /\
  (forall name,
     set_default_tensor_type (TStr name) s =
       match _import_dotted_name name with
       | inl _ => (inl MalformedTypeName, s)
       | inr t => set_default_tensor_type (TDesc t) s
       end) /\
  (forall t,
     set_default_tensor_type (TDesc t) s =
       if registered_b t then
         if is_floating (tt_kind t) then (inr tt, mkState (tt_kind t) t)
         else (inl UnsupportedDefaultKind, s)
       else (inl UnknownType, s)).
Proof.
  intros s. split; [vm_compute; reflexivity | split].
  - intros name. simpl. unfold _import_dotted_name.
    destruct (find _ _); reflexivity.
  - intros t. simpl. unfold _C_set_default_tensor_type.
    destruct (registered_b t), (is_floating (tt_kind t)); reflexivity.
Qed.

(** ** Storage classes *)

(** C5: [_storage_classes] has thirteen classes, each exposing one element
    kind through its native base, no two the same kind, and every element
    kind is exposed by one of them. *)
Theorem storage_classes_cover_kinds :
  List.length _storage_classes = 13 /\
  List.length all_kinds = 13 /\
  (forall k : ElementKind, In k all_kinds) /\
  ~ In None (map storage_kind _storage_classes) /\
  NoDup (map storage_kind _storage_classes) /\
  (forall k : ElementKind, In (Some k) (map storage_kind _storage_classes)).
Proof.
  split; [reflexivity | split; [reflexivity | split; [| split; [| split]]]].
  - intros []; simpl; tauto.
  - vm_compute. intuition discriminate.
  - vm_compute. repeat constructor; simpl; intuition discriminate.
  - intros []; vm_compute; tauto.
Qed.

(** ** The type registry *)

Arguments register {Factory}.
Arguments resolve {Factory}.
Arguments register_all {Factory}.

Lemma key_eqb_spec : forall a b, key_eqb a b = true <-> a = b.
Proof.
  intros [b1 k1] [b2 k2]; unfold key_eqb; simpl.
  destruct (Backend_eq_dec b1 b2), (ElementKind_eq_dec k1 k2); subst;
    split; congruence.
Qed.

Lemma register_inv {F} : forall (r r' : Registry F) b k f,
  register r b k f = inr r' ->
  r' = ((b, k), f) :: r /\ existsb (fun e => key_eqb (fst e) (b, k)) r = false.
Proof.
  intros r r' b k f H; unfold register in H.
  destruct (existsb _ r) eqn:E; [discriminate|]. inversion H; auto.
Qed.

Lemma resolve_cons {F} : forall (r : Registry F) b k f b' k',
  resolve (((b, k), f) :: r) b' k' =
    if key_eqb (b, k) (b', k') then inr f else resolve r b' k'.
Proof. intros; unfold resolve; simpl; destruct (key_eqb _ _); reflexivity. Qed.

Lemma resolve_found {F} : forall (r : Registry F) b k,
  existsb (fun e => key_eqb (fst e) (b, k)) r = true -> exists f, resolve r b k = inr f.
Proof.
  intros r b k H. unfold resolve.
  destruct (find _ r) as [[key f]|] eqn:E; [eauto|].
  rewrite existsb_exists in H. destruct H as [e [Hin He]].
  eapply find_none in E; [|exact Hin]. congruence.
Qed.

Lemma register_duplicate {F} : forall (r : Registry F) b k f g,
  resolve r b k = inr f -> register r b k g = inl DuplicateRegistration.
Proof.
  intros r b k f g H. unfold resolve in H. unfold register.
  destruct (find _ r) as [[key f']|] eqn:E; [|discriminate].
  apply find_some in E. destruct E as [Hin He].
  replace (existsb _ r) with true; [reflexivity|].
  symmetry; apply existsb_exists; eauto.
Qed.

Lemma register_all_spec {F} : forall regs (r r' : Registry F),
  register_all r regs = inr r' ->
  (forall b k f, In (b, k, f) regs -> resolve r' b k = inr f) /\
  (forall b k f, resolve r b k = inr f -> resolve r' b k = inr f) /\
  (forall b k, (forall f, ~ In (b, k, f) regs) -> resolve r' b k = resolve r b k).
Proof.
  induction regs as [|[[b k] f] rest IH]; intros r r' H.
  - simpl in H. inversion H; subst. split; [intros ? ? ? []|split; auto].
  - simpl in H. destruct (register r b k f) as [e|r1] eqn:Hreg; [discriminate|].
    apply register_inv in Hreg. destruct Hreg as [-> Hfresh].
    destruct (IH _ _ H) as [Ha [Hb Hc]].
    split; [|split].
    + intros b' k' f' [Heq|Hin].
      * inversion Heq; subst. apply Hb. rewrite resolve_cons.
        replace (key_eqb (b', k') (b', k')) with true
          by (symmetry; apply key_eqb_spec; reflexivity). reflexivity.
      * apply Ha; exact Hin.
    + intros b' k' f' Hr. apply Hb. rewrite resolve_cons.
      destruct (key_eqb (b, k) (b', k')) eqn:E; [|exact Hr].
      apply key_eqb_spec in E. inversion E; subst.
      apply register_duplicate with (g := f) in Hr.
      unfold register in Hr. rewrite Hfresh in Hr. discriminate.
    + intros b' k' Hnot. rewrite Hc by (intros f' Hin; apply (Hnot f'); right; exact Hin).
      rewrite resolve_cons.
      destruct (key_eqb (b, k) (b', k')) eqn:E; [|reflexivity].
      apply key_eqb_spec in E. inversion E; subst.
      exfalso. apply (Hnot f). left; reflexivity.
Qed.

(** C6: once a sequence of registrations has succeeded, [resolve] returns
    exactly the registered factory for every registered pair, fails with
    [UnknownType] on every other pair, and registering a registered pair
    again fails with [DuplicateRegistration]. *)
Theorem registry_resolve_register : forall (F : Type) regs (r : Registry F),
  register_all empty_registry regs = inr r ->
  (forall b k f, In (b, k, f) regs -> resolve r b k = inr f) /\
  (forall b k, (forall f, ~ In (b, k, f) regs) -> resolve r b k = inl UnknownType) /\
  (forall b k f g, In (b, k, f) regs -> register r b k g = inl DuplicateRegistration).
Proof.
  intros F regs r H. destruct (register_all_spec _ _ _ H) as [Ha [_ Hc]].
  split; [exact Ha | split].
  - intros b k Hnot. rewrite Hc by exact Hnot. reflexivity.
  - intros b k f g Hin. eapply register_duplicate, Ha, Hin.
Qed.

Lemma registry_resolve_register_witness :
  register_all empty_registry [(CPU, Float32, 1); (CUDA, Float64, 2)]
    = inr [((CUDA, Float64), 2); ((CPU, Float32), 1)] /\
  resolve [((CUDA, Float64), 2); ((CPU, Float32), 1)] CPU Float32 = inr 1.
Proof.
  split; [reflexivity|].
  apply (registry_resolve_register nat [(CPU, Float32, 1); (CUDA, Float64, 2)]).
  - reflexivity.
  - left; reflexivity.
Defined.

(** ** Tensor views *)

Lemma valid_index_no_zero : forall ix shape,
  valid_index ix shape -> existsb (Nat.eqb 0) shape = false.
Proof.
  intros ix shape H; induction H as [|i n ix' shape' Hlt _ IH]; [reflexivity|].
  cbn [existsb]. rewrite IH. destruct n; [lia | reflexivity].
Qed.

Lemma pred_valid : forall shape,
  existsb (Nat.eqb 0) shape = false -> valid_index (map pred shape) shape.
Proof.
  induction shape as [|n shape IH]; intros H; [constructor|].
  cbn [existsb] in H. destruct n as [|n]; [discriminate H|].
  constructor; [simpl; lia | apply IH; exact H].
Qed.

Lemma dot_le_last : forall ix shape stride,
  valid_index ix shape -> (dot ix stride <= dot (map pred shape) stride)%nat.
Proof.
  intros ix shape stride H; revert stride.
  induction H as [|i n ix' shape' Hlt _ IH]; intros [|s stride]; simpl; try lia.
  specialize (IH stride).
  assert (i * s <= pred n * s)%nat by (apply Nat.mul_le_mono_r; lia). lia.
Qed.

(** C7: [construct] over a storage of capacity [C] succeeds exactly when
    every valid multi-index of the shape, projected through the stride and
    the offset, lands below [C]; with shape [[3]], stride [[1]] and offset
    [C - 1] it fails with [ShapeStrideMismatch]. *)
Theorem construct_fits_iff :
  (forall st, construct st [3] [1] (st_capacity st - 1) = inl ShapeStrideMismatch) /\
  (forall st shape stride offset,
     List.length shape = List.length stride ->
     (exists v, construct st shape stride offset = inr v) <->
     (forall ix, valid_index ix shape -> (project ix stride offset < st_capacity st)%nat)).
Proof.
  split.
  - intros st. unfold construct, project; simpl.
    destruct (Nat.ltb _ _) eqn:E; [apply Nat.ltb_lt in E; lia | reflexivity].
  - intros st shape stride offset _. unfold construct.
    destruct (existsb (Nat.eqb 0) shape) eqn:Hz.
    + split; [|eauto].
      intros _ ix Hix. rewrite (valid_index_no_zero _ _ Hix) in Hz. discriminate.
    + destruct (Nat.ltb _ _) eqn:Hlt.
      * apply Nat.ltb_lt in Hlt. split; [|eauto].
        intros _ ix Hix. unfold project in *.
        pose proof (dot_le_last ix shape stride Hix). lia.
      * apply Nat.ltb_ge in Hlt. split; [intros [v Hv]; discriminate|].
        intros H. specialize (H _ (pred_valid _ Hz)). lia.
Qed.

Lemma construct_fits_iff_witness :
  List.length [2; 3] = List.length [3; 1] /\
  ((exists v, construct (mkStorage Float32 6) [2; 3] [3; 1] 0 = inr v) <->
   (forall ix, valid_index ix [2; 3] -> (project ix [3; 1] 0 < 6)%nat)).
Proof.
  split; [reflexivity|].
  apply (proj2 construct_fits_iff (mkStorage Float32 6)). reflexivity.
Defined.

(** ** [is_storage], [is_tensor] and [typename] *)

Lemma issubclass_unfold : forall c t,
  issubclass c t = pycls_eqb c t || existsb (fun b => issubclass b t) (cls_bases c).
Proof.
  intros [m n bs] t. reflexivity.
Qed.

(** C8: [is_storage] holds exactly for objects whose class is one of
    [_storage_classes]; an instance of a strict subclass of a storage class
    is not a storage, whereas [is_tensor] holds for an instance of any
    subclass of [torch.Tensor], e.g. of a class declaring one among its
    bases. *)
Theorem is_storage_exact_type :
  (forall o, is_storage o = true <-> In (ob_class o) _storage_classes) /\
  (forall o s,
     In s _storage_classes -> issubclass (ob_class o) s = true ->
     ob_class o <> s -> is_storage o = false) /\
  (forall o, issubclass (ob_class o) Tensor = true -> is_tensor o = true) /\
  (forall o m n bs c,
     ob_class o = Cls m n bs -> In c bs -> issubclass c Tensor = true ->
     is_tensor o = true).
Proof.
  split; [|split; [|split]].
  - intros o. apply existsb_pycls_eqb_In.
  - intros o s Hs Hsub Hne.
    destruct (is_storage o) eqn:E; [|reflexivity]. exfalso.
    apply existsb_pycls_eqb_In in E.
    pose proof storage_classes_unrelated as U.
    rewrite forallb_forall in U. specialize (U _ E).
    rewrite forallb_forall in U. specialize (U _ Hs).
    rewrite Hsub in U. simpl in U. apply pycls_eqb_spec in U. contradiction.
  - intros o H; exact H.
  - intros o m n bs c Ho Hin Hc. unfold is_tensor.
    rewrite issubclass_unfold, Ho. simpl cls_bases.
    apply orb_true_iff; right. apply existsb_exists; eauto.
Qed.

(** A user subclass of [FloatStorage] and one of [torch.Tensor]. *)
Definition MyStorage : pycls := Cls "__main__" "MyStorage" [FloatStorage].
Definition MyTensor : pycls := Cls "__main__" "MyTensor" [Tensor].

Lemma is_storage_exact_type_witness :
  is_storage (mkObj MyStorage (Some (Some "__main__")) None None) = false /\
  is_tensor (mkObj MyTensor (Some (Some "__main__")) None None) = true.
Proof.
  split.
  - apply (proj1 (proj2 is_storage_exact_type)
             (mkObj MyStorage (Some (Some "__main__")) None None) FloatStorage).
    + simpl; tauto.
    + vm_compute; reflexivity.
    + simpl. unfold MyStorage. discriminate.
  - apply (proj2 (proj2 (proj2 is_storage_exact_type))
             (mkObj MyTensor (Some (Some "__main__")) None None)
             "__main__" "MyTensor" [Tensor] Tensor).
    + reflexivity.
    + left; reflexivity.
    + vm_compute; reflexivity.
Defined.

(** C10: on a tensor, [typename] returns what its [type()] method returns,
    whatever its [__module__] and [__qualname__]; on any other object whose
    [__module__] is ['builtins'], ['__builtin__'] or [None], the name has no
    module prefix: it is the [__qualname__], else the [__name__], else the
    name of its class. *)
Theorem typename_spec : forall (tensor_type : pyobj -> string) o,
  (is_tensor o = true -> typename tensor_type o = tensor_type o) /\
  (is_tensor o = false ->
   ob_module o = Some (Some "builtins") \/ ob_module o = Some (Some "__builtin__") \/
   ob_module o = Some None ->
   typename tensor_type o =
     match ob_qualname o with
     | Some q => q
     | None => match ob_name o with Some n => n | None => cls_name (ob_class o) end
     end).
Proof.
  intros tt o. unfold typename. split.
  - intros H; rewrite H; reflexivity.
  - intros H Hm; rewrite H.
    destruct Hm as [Hm|[Hm|Hm]]; rewrite Hm; reflexivity.
Qed.

Lemma typename_spec_witness :
  typename (fun _ => "torch.FloatTensor")
    (mkObj MyTensor (Some (Some "__main__")) (Some "MyTensor") None) = "torch.FloatTensor" /\
  typename (fun _ => "torch.FloatTensor")
    (mkObj (Cls "builtins" "type" [object]) (Some (Some "builtins")) (Some "int") (Some "int"))
    = "int".
Proof.
  split.
  - apply (proj1 (typename_spec (fun _ => "torch.FloatTensor")
                    (mkObj MyTensor (Some (Some "__main__")) (Some "MyTensor") None))).
    vm_compute; reflexivity.
  - apply (proj2 (typename_spec (fun _ => "torch.FloatTensor")
                    (mkObj (Cls "builtins" "type" [object]) (Some (Some "builtins"))
                       (Some "int") (Some "int")))).
    + vm_compute; reflexivity.
    + left; reflexivity.
Defined.

(** * Module-level code *)

(** ** [__all__] *)

Lemma exported_name_true : forall n,
  exported_name n = inr true <->
  n <> "" /\ String.get 0 n <> Some "_"%char /\ endswith n "Base" = false.
Proof.
  intros [|c rest]; simpl.
  - split; [discriminate | intros [H _]; contradiction].
  - split.
    + intros H. injection H as H1.
      apply andb_true_iff in H1. destruct H1 as [H1 H2].
      apply negb_true_iff in H1, H2.
      split; [discriminate | split; [|exact H2]].
      intros Hc. inversion Hc; subst. rewrite Ascii.eqb_refl in H1. discriminate.
    + intros [_ [Hc He]]. rewrite He.
      destruct (Ascii.eqb_spec c "_"%char) as [->|Hne]; [contradiction|reflexivity].
Qed.

Lemma public_names_ok : forall names l,
  public_names names = inr l ->
  forall n, In n l <-> In n names /\ exported_name n = inr true.
Proof.
  induction names as [|h rest IH]; intros l H n; simpl in H.
  - inversion H; subst. simpl. tauto.
  - destruct (exported_name h) as [e|keep] eqn:Eh; [discriminate|].
    destruct (public_names rest) as [e|l'] eqn:Er; [discriminate|].
    inversion H; subst. specialize (IH _ eq_refl n).
    destruct keep; simpl; rewrite IH; split.
    + intros [<-|[Hin Hn]]; [split; [left|]; auto | split; [right|]; auto].
    + intros [[<-|Hin] Hn]; [left | right]; auto.
    + intros [Hin Hn]; split; [right|]; auto.
    + intros [[<-|Hin] Hn]; [congruence | auto].
Qed.

Lemma public_names_error : forall names,
  match public_names names with
  | inl e => e = IndexError /\ In "" names
  | inr _ => ~ In "" names
  end.
Proof.
  induction names as [|h rest IH]; simpl; [tauto|].
  destruct h as [|c s]; simpl.
  - split; auto.
  - destruct (public_names rest) as [e|l].
    + destruct IH as [-> Hin]. split; auto.
    + intros [H|H]; [discriminate | contradiction].
Qed.

(** The names [__all__] ends up with: the literal list, then the names of
    [dir(_C)] that are non-empty, do not start with ['_'] and do not end
    with ['Base']. *)
Theorem torch_all_names : forall dir_C l,
  torch_all dir_C = inr l ->
  forall n, In n l <->
    In n all_literal \/
    (In n dir_C /\ n <> "" /\ String.get 0 n <> Some "_"%char /\
     endswith n "Base" = false).
Proof.
  intros dir_C l H n. unfold torch_all in H.
  destruct (public_names dir_C) as [e|l'] eqn:E; [discriminate|].
  assert (Hl : l = app all_literal l') by congruence. subst l.
  rewrite in_app_iff, (public_names_ok _ _ E n), exported_name_true.
  reflexivity.
Qed.

Lemma torch_all_names_witness :
  torch_all ["_C_internal"; "add"; "FloatStorageBase"] = inr (app all_literal ["add"]) /\
  (In "add" (app all_literal ["add"]) <->
    In "add" all_literal \/
    (In "add" ["_C_internal"; "add"; "FloatStorageBase"] /\ "add" <> "" /\
     String.get 0 "add" <> Some "_"%char /\ endswith "add" "Base" = false)).
Proof.
  split; [reflexivity|].
  apply (torch_all_names ["_C_internal"; "add"; "FloatStorageBase"]). reflexivity.
Defined.

(** Building [__all__] raises only [IndexError], and it does so exactly when
    [dir(_C)] contains the empty name ([name[0]] is evaluated for every
    name before the [endswith] test). *)
Theorem torch_all_index_error : forall dir_C,
  match torch_all dir_C with
  | inl e => e = IndexError /\ In "" dir_C
  | inr _ => ~ In "" dir_C
  end.
Proof.
  intros dir_C. unfold torch_all. pose proof (public_names_error dir_C) as H.
  destruct (public_names dir_C); exact H.
Qed.

(** Of the thirteen storage classes, the eight named in the literal
    [__all__] are always exported, while [HalfStorage], [BFloat16Storage],
    [QUInt8Storage], [QInt8Storage] and [QInt32Storage] are in [__all__]
    only when [dir(_C)] happens to carry their names; no name ending in
    ['Base'] is ever exported. *)
Theorem torch_all_storage_classes : forall dir_C l,
  torch_all dir_C = inr l ->
  (forall n, In n l -> endswith n "Base" = false) /\
  (forall c, In c _storage_classes ->
     In (cls_name c) l <->
     In (cls_name c) all_literal \/ In (cls_name c) dir_C) /\
  filter (fun c => existsb (String.eqb (cls_name c)) all_literal) _storage_classes
    = [DoubleStorage; FloatStorage; LongStorage; IntStorage; ShortStorage;
       CharStorage; ByteStorage; BoolStorage].
Proof.
  intros dir_C l H. split; [|split; [|vm_compute; reflexivity]].
  - intros n Hn. apply (torch_all_names _ _ H) in Hn.
    destruct Hn as [Hn|[_ [_ [_ Hb]]]]; [|exact Hb].
    revert Hn. vm_compute. intuition (subst; reflexivity).
  - intros c Hc. rewrite (torch_all_names _ _ H). split.
    + intros [Hl|[Hd _]]; auto.
    + intros [Hl|Hd]; [left; exact Hl | right; split; [exact Hd|]].
      revert Hc; simpl; intuition (subst; vm_compute; intuition discriminate).
Qed.

Lemma torch_all_storage_classes_witness :
  torch_all ["HalfStorage"] = inr (app all_literal ["HalfStorage"]) /\
  (In (cls_name HalfStorage) (app all_literal ["HalfStorage"]) <->
   In (cls_name HalfStorage) all_literal \/ In (cls_name HalfStorage) ["HalfStorage"]).
Proof.
  split; [reflexivity|].
  apply (torch_all_storage_classes ["HalfStorage"]); [reflexivity|].
  simpl; tauto.
Defined.

(** ** Copying [_C._VariableFunctions] into the module globals *)

Lemma copy_variable_functions_untouched {V} (of_str : string -> V) :
  forall vf g k,
  k <> "name" ->
  (forall v, In (k, v) vf -> String.prefix "__" k = true) ->
  copy_variable_functions of_str vf g k = g k.
Proof.
  induction vf as [|[n v] vf IH]; intros g k Hk H; [reflexivity|].
  simpl. rewrite IH by (auto; intros v' Hin; apply (H v'); right; exact Hin).
  assert (Hname : String.eqb k "name" = false) by (apply String.eqb_neq; exact Hk).
  destruct (String.prefix "__" n) eqn:Ep; unfold dict_set; rewrite Hname;
    [reflexivity|].
  destruct (String.eqb k n) eqn:En; [|reflexivity].
  apply String.eqb_eq in En; subst. rewrite (H v (or_introl eq_refl)) in Ep. discriminate.
Qed.

Lemma copy_variable_functions_app {V} (of_str : string -> V) : forall a b g,
  copy_variable_functions of_str (app a b) g =
  copy_variable_functions of_str b (copy_variable_functions of_str a g).
Proof.
  induction a as [|[n v] a IH]; intros b g; [reflexivity|]. simpl. apply IH.
Qed.

(** After the loop, every attribute of [_C._VariableFunctions] whose name
    does not start with ['__'] is bound in the globals to that attribute,
    replacing any earlier binding (the name ['name'] apart); every other
    global, dunder names included, keeps its binding, except the loop
    variable [name], which is left bound to the last name listed (or to
    the attribute, when that last name is ['name'] itself), and unchanged
    when the list is empty.  ([dir] lists each name once.) *)
Theorem copy_variable_functions_spec {V} (of_str : string -> V) :
  forall (vf : list (string * V)) g,
  NoDup (map fst vf) ->
  (forall n v, In (n, v) vf -> String.prefix "__" n = false -> n <> "name" ->
     copy_variable_functions of_str vf g n = Some v) /\
  (forall n, n <> "name" -> (String.prefix "__" n = true \/ ~ In n (map fst vf)) ->
     copy_variable_functions of_str vf g n = g n) /\
  (forall pre n v, vf = app pre [(n, v)] ->
     copy_variable_functions of_str vf g "name"
       = Some (if String.eqb n "name" then v else of_str n)) /\
  (vf = [] -> copy_variable_functions of_str vf g "name" = g "name").
Proof.
  intros vf g Hnd. split; [|split; [|split]].
  - revert g Hnd. induction vf as [|[m w] vf IH]; intros g Hnd n v Hin Hp Hn;
      [destruct Hin|].
    inversion Hnd as [|? ? Hm Hnd']; subst. simpl.
    destruct Hin as [Heq|Hin].
    + inversion Heq; subst. rewrite Hp.
      rewrite copy_variable_functions_untouched by
        (auto; intros v'' Hin; exfalso; apply Hm;
         apply in_map_iff; exists (n, v''); auto).
      unfold dict_set. rewrite String.eqb_refl. reflexivity.
    + apply IH; assumption.
  - intros n Hn H. apply copy_variable_functions_untouched; [exact Hn|].
    intros v Hin. destruct H as [H|H]; [exact H|].
    exfalso. apply H. apply in_map_iff. exists (n, v); auto.
  - intros pre n v ->. rewrite copy_variable_functions_app. simpl.
    destruct (String.prefix "__" n) eqn:Ep; unfold dict_set.
    + destruct (String.eqb n "name") eqn:En; [|rewrite String.eqb_refl; reflexivity].
      apply String.eqb_eq in En; subst. discriminate Ep.
    + rewrite String.eqb_refl.
      destruct (String.eqb n "name") eqn:En.
      * apply String.eqb_eq in En; subst. reflexivity.
      * rewrite String.eqb_sym, En. reflexivity.
  - intros ->. reflexivity.
Qed.

(** Global values in the witness: a string, or a function standing for an
    attribute of [_C._VariableFunctions]. *)
Inductive gval := GStr (s : string) | GFun (id : nat).

Lemma copy_variable_functions_spec_witness :
  NoDup (map fst [("__doc__", GFun 0); ("add", GFun 1)]) /\
  copy_variable_functions GStr [("__doc__", GFun 0); ("add", GFun 1)]
    (dict_set (fun _ => None) "add" (GFun 7)) "add" = Some (GFun 1) /\
  copy_variable_functions GStr [("__doc__", GFun 0); ("add", GFun 1)]
    (dict_set (fun _ => None) "add" (GFun 7)) "name" = Some (GStr "add").
Proof.
  assert (Hnd : NoDup (map fst [("__doc__", GFun 0); ("add", GFun 1)]))
    by (repeat constructor; simpl; intuition discriminate).
  split; [exact Hnd | split].
  - apply (copy_variable_functions_spec GStr _ _ Hnd).
    + right; left; reflexivity.
    + reflexivity.
    + discriminate.
  - apply (proj1 (proj2 (proj2 (copy_variable_functions_spec GStr _
             (dict_set (fun _ => None) "add" (GFun 7)) Hnd)))
             [("__doc__", GFun 0)] "add" (GFun 1)).
    reflexivity.
Defined.

(** ** The "Remove unnecessary members" block *)

Lemma py_del_all_bound {V} : forall names (g : dict V),
  NoDup names -> (forall n, In n names -> g n <> None) ->
  exists g', py_del_all g names = inr g' /\
    (forall n, In n names -> g' n = None) /\
    (forall n, ~ In n names -> g' n = g n).
Proof.
  induction names as [|h rest IH]; intros g Hnd Hb.
  - exists g; simpl; split; [reflexivity | split; [intros n []|auto]].
  - inversion Hnd as [|? ? Hh Hnd']; subst. simpl. unfold py_del.
    destruct (g h) eqn:Eg; [|exfalso; apply (Hb h); [left|]; auto].
    destruct (IH (dict_del g h) Hnd') as [g' [E [Hdel Hkeep]]].
    + intros n Hn. unfold dict_del.
      destruct (String.eqb n h) eqn:En.
      * apply String.eqb_eq in En; subst; contradiction.
      * apply Hb; right; exact Hn.
    + exists g'; split; [exact E | split].
      * intros n [<-|Hn]; [|auto].
        rewrite Hkeep by exact Hh. unfold dict_del. rewrite String.eqb_refl. reflexivity.
      * intros n Hn. rewrite Hkeep by (intros Hin; apply Hn; right; exact Hin).
        unfold dict_del. destruct (String.eqb n h) eqn:En; [|reflexivity].
        apply String.eqb_eq in En; subst. exfalso; apply Hn; left; reflexivity.
Qed.

Lemma py_del_all_unbound {V} : forall names (g : dict V) n,
  In n names -> g n = None ->
  exists m, In m names /\ py_del_all g names = inl (NameError m).
Proof.
  induction names as [|h rest IH]; intros g n Hin Hn; [destruct Hin|].
  simpl. unfold py_del. destruct (g h) eqn:Eg.
  - destruct Hin as [<-|Hin]; [congruence|].
    destruct (IH (dict_del g h) n Hin) as [m [Hm E]].
    + unfold dict_del. destruct (String.eqb n h); [reflexivity | exact Hn].
    + exists m; split; [right; exact Hm | exact E].
  - exists h; split; [left; reflexivity | reflexivity].
Qed.

(** The [del] block succeeds exactly when the ten named storage bases are
    all bound: it then unbinds those ten and leaves every other global,
    while [HalfStorageBase], [QInt8StorageBase] and [QInt32StorageBase],
    which it does not name, stay bound to what they were.  If one of the
    ten is unbound it raises [NameError] for one of the ten. *)
Theorem del_storage_bases {V} : forall g : dict V,
  ((forall n, In n deleted_bases -> g n <> None) ->
   exists g', py_del_all g deleted_bases = inr g' /\
     (forall n, In n deleted_bases -> g' n = None) /\
     (forall n, ~ In n deleted_bases -> g' n = g n) /\
     g' "HalfStorageBase" = g "HalfStorageBase" /\
     g' "QInt8StorageBase" = g "QInt8StorageBase" /\
     g' "QInt32StorageBase" = g "QInt32StorageBase") /\
  (forall n, In n deleted_bases -> g n = None ->
   exists m, In m deleted_bases /\ py_del_all g deleted_bases = inl (NameError m)).
Proof.
  intros g. split.
  - intros Hb. assert (Hnd : NoDup deleted_bases)
      by (unfold deleted_bases; repeat constructor; simpl; intuition discriminate).
    destruct (py_del_all_bound _ g Hnd Hb) as [g' [E [Hdel Hkeep]]].
    exists g'; repeat split; auto;
      apply Hkeep; simpl; intuition discriminate.
  - intros n Hn Hu. exact (py_del_all_unbound _ g n Hn Hu).
Qed.

(** The globals right after [from torch._C import *]: every storage base,
    bound to its name's length as a stand-in value. *)
Definition globals_with_bases : dict nat :=
  fun n => if existsb (String.eqb n)
                (map (fun k => kind_prefix k ++ "StorageBase") all_kinds)
           then Some (String.length n) else None.

Lemma del_storage_bases_witness :
  (forall n, In n deleted_bases -> globals_with_bases n <> None) /\
  exists g', py_del_all globals_with_bases deleted_bases = inr g' /\
    (forall n, In n deleted_bases -> g' n = None) /\
    (forall n, ~ In n deleted_bases -> g' n = globals_with_bases n) /\
    g' "HalfStorageBase" = Some 15 /\
    g' "QInt8StorageBase" = globals_with_bases "QInt8StorageBase" /\
    g' "QInt32StorageBase" = globals_with_bases "QInt32StorageBase".
Proof.
  assert (Hb : forall n, In n deleted_bases -> globals_with_bases n <> None).
  { intros n Hn; simpl in Hn.
    repeat (destruct Hn as [<-|Hn]; [vm_compute; discriminate|]); destruct Hn. }
  split; [exact Hb|].
  apply (proj1 (del_storage_bases globals_with_bases)). exact Hb.
Defined.

(** ** [manager_path] *)

Lemma utf8_char_spec : forall c,
  ((c < 128)%N /\ utf8_char c = Some [c]) \/
  ((128 <= c < 2048)%N /\ utf8_char c = Some [192 + c / 64; 128 + c mod 64]%N) \/
  ((2048 <= c < 65536)%N /\ is_surrogate c = false /\
     utf8_char c = Some [224 + c / 4096; 128 + (c / 64) mod 64; 128 + c mod 64]%N) \/
  (is_surrogate c = true /\ utf8_char c = None) \/
  ((65536 <= c)%N /\
     utf8_char c = Some [240 + c / 262144; 128 + (c / 4096) mod 64;
                         128 + (c / 64) mod 64; 128 + c mod 64]%N).
Proof.
  intros c. unfold utf8_char.
  destruct (N.ltb c 128) eqn:E1; [left; split; [apply N.ltb_lt; exact E1 | reflexivity]|].
  apply N.ltb_ge in E1.
  destruct (N.ltb c 2048) eqn:E2;
    [right; left; split; [apply N.ltb_lt in E2; lia | reflexivity]|].
  apply N.ltb_ge in E2.
  destruct (N.ltb c 65536) eqn:E3.
  - apply N.ltb_lt in E3. destruct (is_surrogate c) eqn:Es.
    + right; right; right; left; split; reflexivity.
    + right; right; left; split; [lia | split; reflexivity].
  - apply N.ltb_ge in E3. right; right; right; right; split; [lia | reflexivity].
Qed.

Lemma cons_eq_inv {A} : forall (x y : A) l l', x :: l = y :: l' -> x = y /\ l = l'.
Proof. intros x y l l' H. split; congruence. Qed.

Lemma some_inj {A} : forall x y : A, Some x = Some y -> x = y.
Proof. intros x y H. congruence. Qed.

Ltac cons_split H :=
  match type of H with
  | _ :: _ = _ :: _ =>
      let Hx := fresh "Hx" in
      apply cons_eq_inv in H; destruct H as [Hx H]; cons_split H
  | _ => idtac
  end.

Lemma N_split2 : forall c : N, (c = 64 * (c / 64) + c mod 64 /\ c mod 64 < 64)%N.
Proof. intros c. zify. Z.to_euclidean_division_equations. lia. Qed.

Lemma N_split3 : forall c : N,
  (c = 4096 * (c / 4096) + 64 * ((c / 64) mod 64) + c mod 64 /\
   (c / 64) mod 64 < 64 /\ c mod 64 < 64)%N.
Proof. intros c. zify. Z.to_euclidean_division_equations. lia. Qed.

Lemma N_split4 : forall c : N,
  (c = 262144 * (c / 262144) + 4096 * ((c / 4096) mod 64)
       + 64 * ((c / 64) mod 64) + c mod 64 /\
   (c / 4096) mod 64 < 64 /\ (c / 64) mod 64 < 64 /\ c mod 64 < 64)%N.
Proof. intros c. zify. Z.to_euclidean_division_equations. lia. Qed.

(** The encoded shape of one code point: a lead byte and 6-bit continuation
    bytes whose digits reconstruct it. *)
Lemma utf8_char_shape : forall c b, utf8_char c = Some b ->
  ((c < 128)%N /\ b = [c]) \/
  (exists a d, b = [192 + a; 128 + d]%N /\ (a < 32 /\ d < 64)%N /\
     c = (64 * a + d)%N) \/
  (exists a d e, b = [224 + a; 128 + d; 128 + e]%N /\
     (a < 16 /\ d < 64 /\ e < 64)%N /\ c = (4096 * a + 64 * d + e)%N) \/
  (exists a d e f, b = [240 + a; 128 + d; 128 + e; 128 + f]%N /\
     (d < 64 /\ e < 64 /\ f < 64)%N /\
     c = (262144 * a + 4096 * d + 64 * e + f)%N).
Proof.
  intros c b H.
  destruct (utf8_char_spec c) as [[R E]|[[R E]|[[R [S E]]|[[S E]|[R E]]]]];
    rewrite E in H; [apply some_inj in H; subst b ..| discriminate |
                     apply some_inj in H; subst b].
  - left; split; [exact R | reflexivity].
  - right; left. destruct (N_split2 c) as [Hc Hd].
    exists (c / 64)%N, (c mod 64)%N. split; [reflexivity|]. split; [|exact Hc].
    split; [|exact Hd]. apply N.Div0.div_lt_upper_bound. lia.
  - right; right; left. destruct (N_split3 c) as [Hc [Hd He]].
    exists (c / 4096)%N, ((c / 64) mod 64)%N, (c mod 64)%N.
    split; [reflexivity|]. split; [|exact Hc].
    split; [apply N.Div0.div_lt_upper_bound; lia | split; assumption].
  - right; right; right. destruct (N_split4 c) as [Hc [Hd [He Hf]]].
    exists (c / 262144)%N, ((c / 4096) mod 64)%N, ((c / 64) mod 64)%N, (c mod 64)%N.
    split; [reflexivity|]. split; [|exact Hc]. repeat split; assumption.
Qed.

Lemma utf8_char_inj : forall c1 c2 b1 b2 r1 r2,
  utf8_char c1 = Some b1 -> utf8_char c2 = Some b2 ->
  app b1 r1 = app b2 r2 -> c1 = c2 /\ r1 = r2.
Proof.
  intros c1 c2 b1 b2 r1 r2 H1 H2 H.
  apply utf8_char_shape in H1, H2.
  destruct H1 as [[R1 ->]|[[a1 [d1 [-> [R1 ->]]]]|[[a1 [d1 [e1 [-> [R1 ->]]]]]|
                   [a1 [d1 [e1 [f1 [-> [R1 ->]]]]]]]]];
  (destruct H2 as [[R2 ->]|[[a2 [d2 [-> [R2 ->]]]]|[[a2 [d2 [e2 [-> [R2 ->]]]]]|
                   [a2 [d2 [e2 [f2 [-> [R2 ->]]]]]]]]]);
  cbn [app] in H; cons_split H;
  try (exfalso; lia); split; try assumption; lia.
Qed.

Lemma inr_inj_pe {A B} : forall x y : B, @inr A B x = inr y -> x = y.
Proof. intros x y H. congruence. Qed.

Lemma utf8_char_none : forall c, utf8_char c = None <-> is_surrogate c = true.
Proof.
  intros c. destruct (utf8_char_spec c) as [[R E]|[[R E]|[[R [S E]]|[[S E]|[R E]]]]];
    rewrite E; split; intros H; try discriminate; try exact S; try reflexivity;
    try congruence;
    exfalso; unfold is_surrogate in H; apply andb_prop in H;
    destruct H as [H1 H2]; apply N.leb_le in H1; apply N.ltb_lt in H2; lia.
Qed.

Lemma utf8_char_bytes : forall c b, (c < 1114112)%N -> utf8_char c = Some b ->
  forall x, In x b -> (x < 256)%N.
Proof.
  intros c b Hc H x Hx. apply utf8_char_shape in H.
  destruct H as [[R ->]|[[a [d [-> [R ->]]]]|[[a [d [e [-> [R ->]]]]]|
                 [a [d [e [f [-> [R ->]]]]]]]]];
    cbn [In] in Hx; repeat destruct Hx as [<-|Hx]; try contradiction; lia.
Qed.

Lemma utf8_encode_ok_no_surrogate : forall s b, utf8_encode s = inr b ->
  forall c, In c s -> is_surrogate c = false.
Proof.
  induction s as [|c0 rest IH]; intros b H c Hc; [destruct Hc|].
  cbn [utf8_encode] in H. destruct (utf8_char c0) as [bs|] eqn:E0; [|discriminate].
  destruct (utf8_encode rest) as [e|tail] eqn:Er; [discriminate|].
  destruct Hc as [<-|Hc].
  - destruct (is_surrogate c0) eqn:S; [|reflexivity].
    apply utf8_char_none in S. congruence.
  - exact (IH tail eq_refl c Hc).
Qed.

Lemma utf8_encode_surrogate : forall s,
  (exists c, In c s /\ is_surrogate c = true) -> utf8_encode s = inl UnicodeEncodeError.
Proof.
  intros s [c [Hc S]].
  induction s as [|c0 rest IH]; [destruct Hc|].
  cbn [utf8_encode]. destruct (utf8_char c0) as [bs|] eqn:E0; [|reflexivity].
  destruct Hc as [<-|Hc].
  - apply utf8_char_none in S. congruence.
  - rewrite (IH Hc). reflexivity.
Qed.

Lemma utf8_encode_bytes : forall s b, valid_pystr s -> utf8_encode s = inr b ->
  forall x, In x b -> (x < 256)%N.
Proof.
  induction s as [|c rest IH]; intros b Hv H x Hx.
  - cbn [utf8_encode] in H. apply inr_inj_pe in H. subst b. destruct Hx.
  - inversion Hv as [|? ? Hc Hr]; subst.
    cbn [utf8_encode] in H. destruct (utf8_char c) as [bs|] eqn:E0; [|discriminate].
    destruct (utf8_encode rest) as [e|tail] eqn:Er; [discriminate|].
    apply inr_inj_pe in H. subst b. apply in_app_or in Hx. destruct Hx as [Hx|Hx].
    + exact (utf8_char_bytes c bs Hc E0 x Hx).
    + exact (IH tail Hr eq_refl x Hx).
Qed.

Lemma utf8_encode_inj : forall s1 s2 b, utf8_encode s1 = inr b -> utf8_encode s2 = inr b ->
  s1 = s2.
Proof.
  induction s1 as [|c1 r1 IH]; intros s2 b H1 H2; destruct s2 as [|c2 r2].
  - reflexivity.
  - cbn [utf8_encode] in H1, H2. apply inr_inj_pe in H1. subst b.
    destruct (utf8_char c2) as [bs|] eqn:E2; [|discriminate].
    destruct (utf8_encode r2) as [e|tail] eqn:Er; [discriminate|].
    apply inr_inj_pe in H2. apply utf8_char_shape in E2.
    destruct E2 as [[_ ->]|[[? [? [-> _]]]|[[? [? [? [-> _]]]]|[? [? [? [? [-> _]]]]]]]];
      discriminate.
  - cbn [utf8_encode] in H1, H2. apply inr_inj_pe in H2. subst b.
    destruct (utf8_char c1) as [bs|] eqn:E1; [|discriminate].
    destruct (utf8_encode r1) as [e|tail] eqn:Er; [discriminate|].
    apply inr_inj_pe in H1. apply utf8_char_shape in E1.
    destruct E1 as [[_ ->]|[[? [? [-> _]]]|[[? [? [? [-> _]]]]|[? [? [? [? [-> _]]]]]]]];
      discriminate.
  - cbn [utf8_encode] in H1, H2.
    destruct (utf8_char c1) as [bs1|] eqn:E1; [|discriminate].
    destruct (utf8_encode r1) as [e|t1] eqn:Er1; [discriminate|].
    destruct (utf8_char c2) as [bs2|] eqn:E2; [|discriminate].
    destruct (utf8_encode r2) as [e|t2] eqn:Er2; [discriminate|].
    apply inr_inj_pe in H1, H2. subst b.
    destruct (utf8_char_inj c1 c2 bs1 bs2 t1 t2 E1 E2 (eq_sym H2)) as [-> ->].
    rewrite (IH r2 t2 eq_refl Er2). reflexivity.
Qed.

Lemma utf8_encode_nil : forall s, utf8_encode s = inr [] -> s = [].
Proof. intros s H. exact (utf8_encode_inj s [] [] H eq_refl). Qed.

(** X6: [manager_path()] returns [b""] on Windows. Elsewhere it first calls
    [prepare_multiprocessing_environment] on the [torch] directory, whose
    exception propagates; a missing [torch/bin/torch_shm_manager] raises
    [RuntimeError("Unable to find torch_shm_manager at " + path)]; a path
    holding a surrogate raises [UnicodeEncodeError]; otherwise the result
    is the UTF-8 encoding of the path: its bytes are below 256 for a valid
    string, they determine the path, and they are empty only for an empty
    path. *)
Theorem manager_path_spec : forall gfp prep ex p,
  let path := gfp ["torch"; "bin"; "torch_shm_manager"] in
  manager_path gfp prep ex Windows = inr [] /\
  (p <> Windows ->
    (forall b, manager_path gfp prep ex p = inr b <->
       prep (gfp ["torch"]) = inr tt /\ ex path = true /\ utf8_encode path = inr b) /\
    (forall b, manager_path gfp prep ex p = inr b ->
       (forall c, In c path -> is_surrogate c = false) /\
       (valid_pystr path -> forall x, In x b -> (x < 256)%N) /\
       (forall path', utf8_encode path' = inr b -> path' = path) /\
       (b = [] -> path = [])) /\
    (prep (gfp ["torch"]) = inr tt -> ex path = false ->
       manager_path gfp prep ex p =
         inl (RuntimeError (app (pystr_of_string "Unable to find torch_shm_manager at ") path))) /\
    (prep (gfp ["torch"]) = inr tt -> ex path = true ->
       (exists c, In c path /\ is_surrogate c = true) ->
       manager_path gfp prep ex p = inl UnicodeEncodeError) /\
    (forall e, prep (gfp ["torch"]) = inl e -> manager_path gfp prep ex p = inl e)).
Proof.
  intros gfp prep ex p path. split; [reflexivity|]. intros Hp.
  assert (Hunf : manager_path gfp prep ex p =
            match prep (gfp ["torch"]) with
            | inl e => inl e
            | inr _ =>
                if negb (ex path)
                then inl (RuntimeError
                      (app (pystr_of_string "Unable to find torch_shm_manager at ") path))
                else utf8_encode path
            end)
    by (destruct p; [contradiction | reflexivity ..]).
  assert (Hok : forall b, manager_path gfp prep ex p = inr b <->
       prep (gfp ["torch"]) = inr tt /\ ex path = true /\ utf8_encode path = inr b).
  { intros b. rewrite Hunf. split.
    - destruct (prep (gfp ["torch"])) as [e|[]]; [discriminate|].
      destruct (ex path); [|discriminate]. intros H. repeat split; assumption.
    - intros [-> [-> H]]. exact H. }
  split; [exact Hok|]. split; [|split; [|split]].
  - intros b Hb. apply Hok in Hb. destruct Hb as [_ [_ He]].
    split; [exact (utf8_encode_ok_no_surrogate path b He)|].
    split; [intros Hv; exact (utf8_encode_bytes path b Hv He)|].
    split; [intros path' H'; exact (utf8_encode_inj path' path b H' He)|].
    intros ->. exact (utf8_encode_nil path He).
  - intros Hprep Hex. rewrite Hunf, Hprep, Hex. reflexivity.
  - intros Hprep Hex Hs. rewrite Hunf, Hprep, Hex. exact (utf8_encode_surrogate path Hs).
  - intros e He. rewrite Hunf, He. reflexivity.
Qed.

Lemma manager_path_spec_witness :
  let gfp := fun parts : list string =>
    app (pystr_of_string "/opt/") (pystr_of_string (str_join "/" parts)) in
  let gfp' := fun parts : list string => app (gfp parts) [56448%N] in
  let gfp'' := fun parts : list string => [47; 233; 8364; 128512]%N in
  manager_path gfp (fun _ => inr tt) (fun _ => false) Linux =
    inl (RuntimeError (app (pystr_of_string "Unable to find torch_shm_manager at ")
                          (gfp ["torch"; "bin"; "torch_shm_manager"]))) /\
  manager_path gfp' (fun _ => inr tt) (fun _ => true) Linux = inl UnicodeEncodeError /\
  manager_path gfp'' (fun _ => inr tt) (fun _ => true) Darwin =
    inr [47; 195; 169; 226; 130; 172; 240; 159; 152; 128]%N.
Proof.
  intros gfp gfp' gfp''. split; [|split].
  - destruct (manager_path_spec gfp (fun _ => inr tt) (fun _ => false) Linux) as [_ H].
    destruct (H ltac:(discriminate)) as [_ [_ [H3 _]]].
    exact (H3 eq_refl eq_refl).
  - destruct (manager_path_spec gfp' (fun _ => inr tt) (fun _ => true) Linux) as [_ H].
    destruct (H ltac:(discriminate)) as [_ [_ [_ [H4 _]]]].
    apply (H4 eq_refl eq_refl).
    exists 56448%N. split; [|reflexivity].
    apply in_or_app. right. left. reflexivity.
  - destruct (manager_path_spec gfp'' (fun _ => inr tt) (fun _ => true) Darwin) as [_ H].
    destruct (H ltac:(discriminate)) as [Hok _].
    apply Hok. split; [reflexivity|]. split; [reflexivity|]. vm_compute. reflexivity.
Defined.


(** ** The Windows [PATH] setup *)

Lemma split_semi_app : forall a rest,
  no_semi a = true -> split_semi (a ++ String ";" rest) = a :: split_semi rest.
Proof.
  induction a as [|c a IH]; intros rest H; [reflexivity|].
  unfold no_semi in H. cbn [list_ascii_of_string existsb] in H.
  apply negb_true_iff, orb_false_iff in H. destruct H as [Hc Ha].
  cbn [append split_semi]. rewrite Hc, IH; [reflexivity|].
  unfold no_semi; rewrite Ha; reflexivity.
Qed.

(** On Windows the module raises [KeyError] when [PATH] is unset;
    otherwise it sets [PATH] so that its [';']-separated entries are the
    torch [lib] directory, the Python [Library\bin] directory, the NvToolsExt
    [bin\x64] directory ([''] when that directory does not exist), then all
    the previous entries in order; no other variable changes. *)
Theorem windows_dll_setup_path :
  forall path_join path_exists file_dir exec_prefix (env : dict string),
  (env "PATH" = None ->
   windows_dll_setup path_join path_exists file_dir exec_prefix env
     = inl (KeyError "PATH")) /\
  (forall old,
   env "PATH" = Some old ->
   no_semi (th_dll_path path_join file_dir) = true ->
   no_semi (py_dll_path path_join exec_prefix) = true ->
   no_semi (nvtoolsext_lib_path path_join path_exists env) = true ->
   exists env',
     windows_dll_setup path_join path_exists file_dir exec_prefix env = inr env' /\
     (exists s, env' "PATH" = Some s /\
        split_semi s = th_dll_path path_join file_dir
                       :: py_dll_path path_join exec_prefix
                       :: nvtoolsext_lib_path path_join path_exists env
                       :: split_semi old) /\
     (forall k, k <> "PATH" -> env' k = env k)).
Proof.
  intros pj pe fd ep env. split.
  - intros H. unfold windows_dll_setup. rewrite H. reflexivity.
  - intros old H Hth Hpy Hnv. unfold windows_dll_setup. rewrite H.
    eexists; split; [reflexivity | split].
    + eexists; split.
      * unfold dict_set. rewrite String.eqb_refl. reflexivity.
      * cbn [str_join append]. rewrite !split_semi_app by assumption. reflexivity.
    + intros k Hk. unfold dict_set.
      destruct (String.eqb k "PATH") eqn:E; [|reflexivity].
      apply String.eqb_eq in E. contradiction.
Qed.

(** An environment with [PATH] set and no NvToolsExt directory. *)
Definition win_env : dict string :=
  dict_set (fun _ => None) "PATH" "C:\Windows;C:\Tools".

Definition win_join (l : list string) : string := str_join "\" l.

Lemma windows_dll_setup_path_witness :
  exists env',
    windows_dll_setup win_join (fun _ => false) "C:\Python\torch" "C:\Python"
      win_env = inr env' /\
    (exists s, env' "PATH" = Some s /\
       split_semi s = ["C:\Python\torch\lib"; "C:\Python\Library\bin"; "";
                       "C:\Windows"; "C:\Tools"]) /\
    (forall k, k <> "PATH" -> env' k = win_env k).
Proof.
  apply (proj2 (windows_dll_setup_path win_join (fun _ => false)
                  "C:\Python\torch" "C:\Python" win_env) "C:\Windows;C:\Tools");
    vm_compute; reflexivity.
Defined.

(** ** Storages are not tensors *)

(** No storage object is a tensor: none of the thirteen storage classes
    derives from [torch.Tensor]. *)
Theorem storage_not_tensor : forall o, is_storage o = true -> is_tensor o = false.
Proof.
  intros o H. apply existsb_pycls_eqb_In in H. unfold is_tensor.
  revert H. generalize (ob_class o) as c. intros c H.
  simpl in H. repeat (destruct H as [<-|H]; [vm_compute; reflexivity|]). destruct H.
Qed.

Lemma storage_not_tensor_witness :
  is_storage (mkObj HalfStorage (Some (Some "torch")) None None) = true /\
  is_tensor (mkObj HalfStorage (Some (Some "torch")) None None) = false.
Proof.
  assert (H : is_storage (mkObj HalfStorage (Some (Some "torch")) None None) = true)
    by (vm_compute; reflexivity).
  split; [exact H | apply storage_not_tensor; exact H].
Defined.

(** ** [typename] with a module prefix *)

Lemma str_append_assoc : forall a b c, ((a ++ b) ++ c)%string = (a ++ b ++ c)%string.
Proof. induction a as [|x a IH]; intros b c; simpl; [|rewrite IH]; reflexivity. Qed.

(** On a non-tensor, [typename] puts [m + '.'] in front of the class name
    when [__module__] is a string [m] other than ['builtins'] and
    ['__builtin__'], and no prefix when the object has no [__module__]. *)
Theorem typename_module_prefix : forall (tensor_type : pyobj -> string) o,
  is_tensor o = false ->
  let class_name :=
    match ob_qualname o with
    | Some q => q
    | None => match ob_name o with Some n => n | None => cls_name (ob_class o) end
    end in
  (forall m, ob_module o = Some (Some m) -> m <> "builtins" -> m <> "__builtin__" ->
     typename tensor_type o = m ++ "." ++ class_name) /\
  (ob_module o = None -> typename tensor_type o = class_name).
Proof.
  intros tt o Ht cn. unfold typename. rewrite Ht. split.
  - intros m Hm H1 H2. rewrite Hm.
    apply String.eqb_neq in H1, H2. rewrite H1, H2. simpl.
    apply str_append_assoc.
  - intros Hm. rewrite Hm. reflexivity.
Qed.

Lemma typename_module_prefix_witness :
  typename (fun _ => "") (mkObj (Cls "builtins" "type" [object])
              (Some (Some "collections")) (Some "OrderedDict") None)
    = "collections.OrderedDict".
Proof.
  apply (proj1 (typename_module_prefix (fun _ => "")
                  (mkObj (Cls "builtins" "type" [object])
                     (Some (Some "collections")) (Some "OrderedDict") None)
                  ltac:(vm_compute; reflexivity)) "collections");
    [reflexivity | discriminate | discriminate].
Defined.
